(** * game_generator.py: the generate / review / persist workflow

    A shallow embedding of [src/game_generator.py].  The script declares two
    pydantic models ([GameOutput], [QAOutput]), a workflow class
    [GameGenerator] with two agents, and the generator method
    [GameGenerator.run]; at module level it prepares the output path and
    iterates one run.

    What lies outside the repository is kept abstract:
    - an agent (phi's [Agent], backed by a hosted model) is the function from
      the prompt it is run on to the value its [run] call returns;
    - [json.dumps] is a parameter of the development;
    - the file system is the finite map from paths of regular files to their
      text (directories are not tracked). *)

From stdpp Require Import gmap strings list.

(** ** Python values *)

(** [class GameOutput(BaseModel)]: three required text fields. *)
Record GameOutput := {
  reasoning : string;
  code : string;
  instructions : string;
}.

(** [class QAOutput(BaseModel)]: [reasoning] is required, [correct] is
    declared [Field(False, ...)]. *)
Record QAOutput := {
  qa_reasoning : string;
  correct : bool;
}.

(** The pydantic constructor, from the field declarations: [reasoning] is
    declared with [...] and must be supplied, [correct] takes its declared
    default when absent. *)
Definition QAOutput_init (r : option string) (c : option bool) : option QAOutput :=
  match r with
  | Some r => Some {| qa_reasoning := r; correct := default false c |}
  | None => None
  end.

(** What the [content] of a response can hold ([Any] in phi); the cases the
    workflow's tests tell apart. *)
Inductive PyValue :=
| PyNone
| PyBool (b : bool)
| PyStr (s : string)
| PyGameOutput (g : GameOutput)
| PyQAOutput (q : QAOutput).

(** Python truthiness: [None], [False] and the empty string are falsy; a
    model instance defines neither [__bool__] nor [__len__]. *)
Definition truthy (v : PyValue) : bool :=
  match v with
  | PyNone => false
  | PyBool b => b
  | PyStr s => negb (String.eqb s "")
  | PyGameOutput _ | PyQAOutput _ => true
  end.

Definition isinstance_GameOutput (v : PyValue) : bool :=
  match v with PyGameOutput _ => true | _ => false end.

Definition isinstance_QAOutput (v : PyValue) : bool :=
  match v with PyQAOutput _ => true | _ => false end.

(** [phi.run.response.RunEvent]; the workflow only builds
    [workflow_completed]. *)
Inductive RunEvent :=
| run_started | run_response | run_completed
| tool_call_started | tool_call_completed
| reasoning_started | reasoning_step | reasoning_completed
| updating_memory
| workflow_started | workflow_completed.

Record RunResponse := {
  run_id : option string;
  event : RunEvent;
  content : PyValue;
}.

(** ** The file system and the effects of the script *)

Abbreviation Path := string (only parsing).
Abbreviation FS := (gmap string string) (only parsing).

(** [Path.__truediv__] *)
Definition path_join (p : Path) (name : string) : Path := p +:+ "/" +:+ name.

Definition games_dir : Path := "/content/tmp/games".
Definition game_output_path : Path := path_join games_dir "pong-game.html".

Inductive Effect :=
| logger_info (m : PyValue)
| mkdir (p : Path)            (* [mkdir(exist_ok=True, parents=True)] *)
| unlink (p : Path)           (* [unlink(missing_ok=True)] *)
| write_text (p : Path) (data : string)
| print (r : RunResponse).

(** Effect of one statement on the regular files. *)
Definition perform (e : Effect) (fs : FS) : FS :=
  match e with
  | write_text p data => <[p := data]> fs
  | unlink p => delete p fs
  | logger_info _ | mkdir _ | print _ => fs
  end.

Definition perform_all (es : list Effect) (fs : FS) : FS :=
  foldl (fun fs e => perform e fs) fs es.

(** ** Agents and the workflow object *)

Record Agent := {
  agent_name : string;
  agent_run : string -> option RunResponse;
}.

Inductive AgentAttr := game_developer | qa_agent.

Record GameGenerator := {
  self_run_id : option string;
  agents : AgentAttr -> Agent;
}.

(** ** Generators

    The body of a generator function, as the tree of what it does until it
    returns or raises.  Nothing happens when the tree is built (calling
    [run] only creates the generator); the drivers below execute it. *)
Inductive Gen :=
| Return
| Raise (msg : string)                 (* [raise Exception(msg)] *)
| Yield (r : RunResponse) (k : Gen)
| Do (e : Effect) (k : Gen)
| RunAgent (a : AgentAttr) (prompt : string) (k : option RunResponse -> Gen).

Inductive Event :=
| EvDo (e : Effect)
| EvRunAgent (a : AgentAttr) (prompt : string)
| EvYield (r : RunResponse).

Inductive Outcome :=
| Returned
| Raised (msg : string).

Record Exec := {
  outcome : Outcome;
  emitted : list Event;
  files : gmap string string;
}.

Definition emit (evs : list Event) (x : Exec) : Exec :=
  {| outcome := outcome x; emitted := evs ++ emitted x; files := files x |}.

(** [for r in g: body r], where the loop body is a list of statements.  An
    exception ends the loop; the events keep the order of execution. *)
Fixpoint for_in (self : GameGenerator) (body : RunResponse -> list Effect)
    (g : Gen) (fs : gmap string string) : Exec :=
  match g with
  | Return => {| outcome := Returned; emitted := []; files := fs |}
  | Raise msg => {| outcome := Raised msg; emitted := []; files := fs |}
  | Yield r k =>
      emit (EvYield r :: map EvDo (body r))
        (for_in self body k (perform_all (body r) fs))
  | Do e k => emit [EvDo e] (for_in self body k (perform e fs))
  | RunAgent a prompt k =>
      emit [EvRunAgent a prompt]
        (for_in self body (k (agent_run (agents self a) prompt)) fs)
  end.

(** One [next(g)]: run to the first [yield], to the end, or to a raise. *)
Inductive Next :=
| NextValue (r : RunResponse) (rest : Gen)
| StopIteration
| NextRaised (msg : string).

Fixpoint next (self : GameGenerator) (g : Gen) (fs : gmap string string)
    : Next * list Event * gmap string string :=
  match g with
  | Return => (StopIteration, [], fs)
  | Raise msg => (NextRaised msg, [], fs)
  | Yield r k => (NextValue r k, [EvYield r], fs)
  | Do e k =>
      let '(n, evs, fs') := next self k (perform e fs) in (n, EvDo e :: evs, fs')
  | RunAgent a prompt k =>
      let '(n, evs, fs') := next self (k (agent_run (agents self a) prompt)) fs in
      (n, EvRunAgent a prompt :: evs, fs')
  end.

(** Readings of a trace. *)
Definition yielded (evs : list Event) : list RunResponse :=
  omap (fun ev => match ev with EvYield r => Some r | _ => None end) evs.

Definition printed (evs : list Event) : list RunResponse :=
  omap (fun ev => match ev with EvDo (print r) => Some r | _ => None end) evs.

Definition is_write_to (p : Path) (ev : Event) : bool :=
  match ev with
  | EvDo (write_text q _) => bool_decide (q = p)
  | _ => false
  end.

Definition is_removal_of (p : Path) (ev : Event) : bool :=
  match ev with
  | EvDo (unlink q) => bool_decide (q = p)
  | _ => false
  end.


Definition modifies_files (ev : Event) : bool :=
  match ev with
  | EvDo (write_text _ _) | EvDo (unlink _) => true
  | _ => false
  end.

Definition agent_runs (evs : list Event) : list (AgentAttr * string) :=
  omap (fun ev => match ev with EvRunAgent a prompt => Some (a, prompt) | _ => None end) evs.

(** ** Sample collaborators

    Agents that answer every prompt with a fixed content, a workflow object
    built from two of them, and a stand-in serializer. *)
Definition answering (label : string) (v : PyValue) : Agent :=
  {| agent_name := label;
     agent_run := fun _ =>
       Some {| run_id := None; event := run_response; content := v |} |}.

Definition silent (label : string) : Agent :=
  {| agent_name := label; agent_run := fun _ => None |}.

Definition generator_of (developer qa : Agent) : GameGenerator :=
  {| self_run_id := Some "run-1";
     agents := fun a =>
       match a with game_developer => developer | qa_agent => qa end |}.

Definition pong : GameOutput :=
  {| reasoning := "canvas loop";
     code := "<html>...</html>";
     instructions := "Use W/S" |}.

Definition verdict (b : bool) : QAOutput :=
  {| qa_reasoning := "checked"; correct := b |}.

Definition developer_ok : Agent := answering "Game Developer Agent" (PyGameOutput pong).
Definition developer_text : Agent := answering "Game Developer Agent" (PyStr "Sorry, no game.").
Definition qa_says (b : bool) : Agent := answering "QA Agent" (PyQAOutput (verdict b)).
Definition qa_text : Agent := answering "QA Agent" (PyStr "looks fine").

Definition qa_unset : Agent :=
  answering "QA Agent"
    (default PyNone (PyQAOutput <$> QAOutput_init (Some "no verdict given") None)).

Definition plain_dumps (d : list (string * string)) : string :=
  String.concat ";" (map (fun kv => kv.1 +:+ "=" +:+ kv.2) d).

Definition accepting : GameGenerator := generator_of developer_ok (qa_says true).
Definition rejecting : GameGenerator := generator_of developer_ok (qa_says false).
Definition undeveloped : GameGenerator := generator_of developer_text (qa_says true).
Definition unreviewed : GameGenerator := generator_of developer_ok qa_text.
Definition undecided : GameGenerator := generator_of developer_ok qa_unset.
Definition unanswered : GameGenerator := generator_of developer_ok (silent "QA Agent").

(** A developer agent that only knows one request, and whose play
    instructions read like the failure message of the workflow. *)
Definition misleading_pong : GameOutput :=
  {| reasoning := "canvas loop";
     code := "<html>...</html>";
     instructions := "Game generation failed (developer agent)." |}.

Definition developer_of_pong_only : Agent :=
  {| agent_name := "Game Developer Agent";
     agent_run := fun prompt =>
       Some {| run_id := None; event := run_response;
               content := if String.eqb prompt "Create a Pong game"
                          then PyGameOutput misleading_pong
                          else PyStr "Sorry, no game." |} |}.

Definition selective : GameGenerator := generator_of developer_of_pong_only (qa_says true).

(** The workflow object of another call: its run id differs. *)
Definition fresh_undeveloped : GameGenerator :=
  {| self_run_id := Some "run-2"; agents := agents undeveloped |}.

(** A developer agent that answers with a review, a QA agent that answers
    with a game. *)
Definition confused : GameGenerator :=
  generator_of (answering "Game Developer Agent" (PyQAOutput (verdict true)))
               (answering "QA Agent" (PyGameOutput pong)).

(** A file system in which an earlier game is still at the output path. *)
Definition stale_files : gmap string string :=
  {[ "/content/tmp/games/pong-game.html" := "<html>old</html>" ]}.

Section Workflow.

(** [json.dumps(d, indent=2)] on a dict of text entries, in insertion
    order. *)
Variable json_dumps : list (string * string) -> string.

(** [r and r.content and isinstance(r.content, GameOutput)], together with
    the content the guarded branch then reads. *)
Definition as_GameOutput (r : option RunResponse) : option GameOutput :=
  match r with
  | Some resp =>
      if truthy (content resp) && isinstance_GameOutput (content resp)
      then match content resp with PyGameOutput g => Some g | _ => None end
      else None
  | None => None
  end.

Definition as_QAOutput (r : option RunResponse) : option QAOutput :=
  match r with
  | Some resp =>
      if truthy (content resp) && isinstance_QAOutput (content resp)
      then match content resp with PyQAOutput q => Some q | _ => None end
      else None
  | None => None
  end.

Definition completed (self : GameGenerator) (c : string) : RunResponse :=
  {| run_id := self_run_id self; event := workflow_completed; content := PyStr c |}.

(** [GameGenerator.run] *)
Definition run (self : GameGenerator) (game_description : string) : Gen :=
  Do (logger_info (PyStr ("Game description: " +:+ game_description))) $
  RunAgent game_developer game_description $ fun game_output =>
  match as_GameOutput game_output with
  | Some game =>
      let game_code := code game in
      Do (logger_info (PyStr "HTML Game Code generated successfully.")) $
      Do (logger_info (PyStr "Running QA on the generated game...")) $
      let qa_input :=
        [("game_description", game_description); ("game_code", game_code)] in
      RunAgent qa_agent (json_dumps qa_input) $ fun qa_output =>
      match as_QAOutput qa_output with
      | Some qa =>
          Do (logger_info (PyStr "QA Agent Response:")) $
          Do (logger_info (PyQAOutput qa)) $
          if negb (correct qa) then Raise "QA failed for game code; rejected."
          else
            Do (write_text game_output_path game_code) $
            Yield (completed self (instructions game)) Return
      | None =>
          Yield (completed self "Game generation failed (QA agent).") Return
      end
  | None =>
      Yield (completed self "Game generation failed (developer agent).") Return
  end.

(** The module-level statements before the class definitions. *)
Definition module_load : list Effect := [mkdir games_dir; unlink game_output_path].

(** One execution of the script on a description: the module is loaded, then
    [for r in generator.run(game_description): print(r)]. *)
Definition load_and_run (generator : GameGenerator) (game_description : string)
    (fs : gmap string string) : Exec :=
  emit (map EvDo module_load)
    (for_in generator (fun r => [print r])
       (run generator game_description)
       (perform_all module_load fs)).

(** The script as written. *)
Definition main (generator : GameGenerator) (fs : gmap string string) : Exec :=
  load_and_run generator "Create an enhanced Pong game" fs.

(** Iterating a generator to its end with an empty loop body. *)
Definition exhaust (self : GameGenerator) (g : Gen) (fs : gmap string string) : Exec :=
  for_in self (fun _ => []) g fs.

(** ** The results of the two stages, as [run] reads them *)

Definition qa_prompt (game_description : string) (game : GameOutput) : string :=
  json_dumps [("game_description", game_description); ("game_code", code game)].

Definition generation (self : GameGenerator) (game_description : string)
    : option GameOutput :=
  as_GameOutput (agent_run (agents self game_developer) game_description).

Definition review (self : GameGenerator) (game_description : string)
    (game : GameOutput) : option QAOutput :=
  as_QAOutput (agent_run (agents self qa_agent) (qa_prompt game_description game)).

(** The review stage produced a valid result with [correct = True]. *)
Definition review_accepts (self : GameGenerator) (game_description : string) : Prop :=
  exists game qa,
    generation self game_description = Some game /\
    review self game_description game = Some qa /\
    correct qa = true.

Definition rejection : string := "QA failed for game code; rejected.".
Definition generation_failed : string := "Game generation failed (developer agent).".
Definition review_failed : string := "Game generation failed (QA agent).".

(** The text a run writes to the output path, if it writes. *)
Definition persisted (self : GameGenerator) (game_description : string)
    : option string :=
  match generation self game_description with
  | Some game =>
      match review self game_description game with
      | Some qa => if correct qa then Some (code game) else None
      | None => None
      end
  | None => None
  end.

(** The events of [run] on each of its four paths. *)
Definition events_generation (game_description : string) : list Event :=
  [EvDo (logger_info (PyStr ("Game description: " +:+ game_description)));
   EvRunAgent game_developer game_description].

Definition events_review (game_description : string) (game : GameOutput) : list Event :=
  events_generation game_description ++
  [EvDo (logger_info (PyStr "HTML Game Code generated successfully."));
   EvDo (logger_info (PyStr "Running QA on the generated game..."));
   EvRunAgent qa_agent (qa_prompt game_description game)].

Definition events_verdict (game_description : string) (game : GameOutput)
    (qa : QAOutput) : list Event :=
  events_review game_description game ++
  [EvDo (logger_info (PyStr "QA Agent Response:"));
   EvDo (logger_info (PyQAOutput qa))].

(** ** Executing [run], path by path *)

Section Paths.

Variables (self : GameGenerator) (game_description : string).
Variable body : RunResponse -> list Effect.
Variable fs : gmap string string.

Lemma emit_emit (evs1 evs2 : list Event) (x : Exec) :
  emit evs1 (emit evs2 x) = emit (evs1 ++ evs2) x.
Proof. unfold emit; cbn [outcome emitted files]. by rewrite app_assoc. Qed.

Lemma for_in_yield_last (r : RunResponse) (evs : list Event) :
  emit evs (for_in self body (Yield r Return) fs) =
  {| outcome := Returned;
     emitted := evs ++ EvYield r :: map EvDo (body r);
     files := perform_all (body r) fs |}.
Proof.
  cbn [for_in]. unfold emit; cbn [outcome emitted files]. by rewrite app_nil_r.
Qed.

Lemma run_generation_failed :
  generation self game_description = None ->
  for_in self body (run self game_description) fs =
  {| outcome := Returned;
     emitted := events_generation game_description ++
                EvYield (completed self generation_failed) ::
                map EvDo (body (completed self generation_failed));
     files := perform_all (body (completed self generation_failed)) fs |}.
Proof.
  intros Hgen. unfold generation in Hgen. unfold run.
  cbn [for_in]. rewrite Hgen. cbn [perform].
  rewrite !emit_emit. apply for_in_yield_last.
Qed.

Lemma run_review_failed (game : GameOutput) :
  generation self game_description = Some game ->
  review self game_description game = None ->
  for_in self body (run self game_description) fs =
  {| outcome := Returned;
     emitted := events_review game_description game ++
                EvYield (completed self review_failed) ::
                map EvDo (body (completed self review_failed));
     files := perform_all (body (completed self review_failed)) fs |}.
Proof.
  intros Hgen Hqa. unfold generation in Hgen. unfold review, qa_prompt in Hqa.
  unfold run. cbn [for_in]. rewrite Hgen. cbn [for_in perform]. rewrite Hqa.
  rewrite !emit_emit. apply for_in_yield_last.
Qed.

Lemma run_rejected (game : GameOutput) (qa : QAOutput) :
  generation self game_description = Some game ->
  review self game_description game = Some qa ->
  correct qa = false ->
  for_in self body (run self game_description) fs =
  {| outcome := Raised rejection;
     emitted := events_verdict game_description game qa;
     files := fs |}.
Proof.
  intros Hgen Hqa Hno. unfold generation in Hgen. unfold review, qa_prompt in Hqa.
  unfold run. cbn [for_in]. rewrite Hgen. cbn [for_in perform]. rewrite Hqa.
  cbn [for_in perform]. rewrite Hno. reflexivity.
Qed.

Lemma run_accepted (game : GameOutput) (qa : QAOutput) :
  generation self game_description = Some game ->
  review self game_description game = Some qa ->
  correct qa = true ->
  for_in self body (run self game_description) fs =
  {| outcome := Returned;
     emitted := events_verdict game_description game qa ++
                EvDo (write_text game_output_path (code game)) ::
                EvYield (completed self (instructions game)) ::
                map EvDo (body (completed self (instructions game)));
     files := perform_all (body (completed self (instructions game)))
                (<[game_output_path := code game]> fs) |}.
Proof.
  intros Hgen Hqa Hyes. unfold generation in Hgen. unfold review, qa_prompt in Hqa.
  unfold run. cbn [for_in]. rewrite Hgen. cbn [for_in perform]. rewrite Hqa.
  cbn [for_in perform]. rewrite Hyes. cbn [negb for_in perform].
  unfold emit; cbn [outcome emitted files]. rewrite app_nil_r. reflexivity.
Qed.

End Paths.

(** The four paths cover every run. *)
Inductive Stages (self : GameGenerator) (game_description : string) : Prop :=
| GenerationFailure :
    generation self game_description = None -> Stages self game_description
| ReviewFailure game :
    generation self game_description = Some game ->
    review self game_description game = None -> Stages self game_description
| RejectedByReview game qa :
    generation self game_description = Some game ->
    review self game_description game = Some qa ->
    correct qa = false -> Stages self game_description
| Accepted game qa :
    generation self game_description = Some game ->
    review self game_description game = Some qa ->
    correct qa = true -> Stages self game_description.

Lemma stages (self : GameGenerator) (game_description : string) :
  Stages self game_description.
Proof.
  destruct (generation self game_description) as [game|] eqn:Hgen;
    [|by apply GenerationFailure].
  destruct (review self game_description game) as [qa|] eqn:Hqa;
    [|by eapply ReviewFailure].
  destruct (correct qa) eqn:Hc; [by eapply Accepted | by eapply RejectedByReview].
Qed.

Lemma accepts_inv (self : GameGenerator) (game_description : string) game qa :
  generation self game_description = Some game ->
  review self game_description game = Some qa ->
  review_accepts self game_description -> correct qa = true.
Proof.
  intros Hgen Hqa (game' & qa' & Hgen' & Hqa' & Hc).
  rewrite Hgen in Hgen'. injection Hgen' as <-.
  rewrite Hqa in Hqa'. by injection Hqa' as <-.
Qed.

Lemma not_accepts_generation (self : GameGenerator) (game_description : string) :
  generation self game_description = None -> ~ review_accepts self game_description.
Proof. intros Hgen (game & qa & Hgen' & _). congruence. Qed.

Lemma not_accepts_review (self : GameGenerator) (game_description : string) game :
  generation self game_description = Some game ->
  review self game_description game = None ->
  ~ review_accepts self game_description.
Proof.
  intros Hgen Hqa (game' & qa & Hgen' & Hqa' & _).
  rewrite Hgen in Hgen'. injection Hgen' as <-. congruence.
Qed.

Lemma not_accepts_rejected (self : GameGenerator) (game_description : string) game qa :
  generation self game_description = Some game ->
  review self game_description game = Some qa ->
  correct qa = false -> ~ review_accepts self game_description.
Proof.
  intros Hgen Hqa Hc Hacc.
  rewrite (accepts_inv _ _ _ _ Hgen Hqa Hacc) in Hc. discriminate.
Qed.

(** Reading the traces of the four paths. *)
Lemma is_write_to_same (p data : string) :
  is_write_to p (EvDo (write_text p data)) = true.
Proof. by apply bool_decide_eq_true_2. Qed.

Lemma yielded_map_EvDo (es : list Effect) : yielded (map EvDo es) = [].
Proof. by induction es. Qed.

Lemma yielded_last (evs : list Event) (r : RunResponse) (es : list Effect) :
  yielded evs = [] -> yielded (evs ++ EvYield r :: map EvDo es) = [r].
Proof.
  intros Hevs. unfold yielded in *. rewrite omap_app, Hevs.
  simpl. f_equal. apply (yielded_map_EvDo es).
Qed.

Lemma accepted_trace_writes (game_description : string) game qa (rest : list Event) :
  existsb (is_write_to game_output_path)
    (events_verdict game_description game qa ++
     EvDo (write_text game_output_path (code game)) :: rest) = true.
Proof.
  rewrite existsb_app. cbn [existsb]. rewrite is_write_to_same.
  by rewrite orb_true_r.
Qed.

(** Rewriting with the equation of one path and reading the record. *)
Ltac on_path H :=
  unfold exhaust, load_and_run; rewrite H;
  unfold emit; cbn [outcome emitted files map perform_all foldl perform module_load].

(** ** The persistence invariant *)

(** C1. In every run of [GameGenerator.run] a write to the output path occurs
    exactly when the review stage produced a valid result with
    [correct = True]; on every other path the run performs no write and no
    removal at all, and the files are left as they were. *)
Theorem write_iff_review_accepts (self : GameGenerator)
    (game_description : string) (fs : gmap string string) :
  let x := exhaust self (run self game_description) fs in
  (existsb (is_write_to game_output_path) (emitted x) = true <->
   review_accepts self game_description) /\
  (~ review_accepts self game_description ->
   existsb modifies_files (emitted x) = false /\ files x = fs).
Proof.
  intros x; subst x.
  destruct (stages self game_description)
    as [Hgen|game Hgen Hqa|game qa Hgen Hqa Hc|game qa Hgen Hqa Hc].
  - on_path (run_generation_failed self game_description (fun _ => []) fs Hgen).
    split; [|done]. split; [done|].
    intros Hacc. by apply not_accepts_generation in Hacc.
  - on_path (run_review_failed self game_description (fun _ => []) fs game Hgen Hqa).
    split; [|done]. split; [done|].
    intros Hacc. by apply (not_accepts_review _ _ _ Hgen Hqa) in Hacc.
  - on_path (run_rejected self game_description (fun _ => []) fs game qa Hgen Hqa Hc).
    split; [|done]. split; [done|].
    intros Hacc. by apply (not_accepts_rejected _ _ _ _ Hgen Hqa Hc) in Hacc.
  - on_path (run_accepted self game_description (fun _ => []) fs game qa Hgen Hqa Hc).
    split.
    + split; [intros _; by exists game, qa | intros _; apply accepted_trace_writes].
    + intros Hno. destruct Hno. by exists game, qa.
Qed.

(** C2. When the review stage returns a valid result with [correct = False],
    whatever the generated game is, the run raises, yields nothing, writes
    nothing and leaves the files as they were; in an execution of the script
    (module load, then the run) no file is at the output path afterwards. *)
Theorem rejected_run_raises_without_file (self : GameGenerator)
    (game_description : string) (fs : gmap string string)
    (game : GameOutput) (qa : QAOutput) :
  generation self game_description = Some game ->
  review self game_description game = Some qa ->
  correct qa = false ->
  let x := exhaust self (run self game_description) fs in
  let y := load_and_run self game_description fs in
  outcome x = Raised rejection /\
  yielded (emitted x) = [] /\
  existsb modifies_files (emitted x) = false /\
  files x = fs /\
  outcome y = Raised rejection /\
  existsb (is_write_to game_output_path) (emitted y) = false /\
  files y !! game_output_path = None.
Proof.
  intros Hgen Hqa Hc x y; subst x y.
  split_and!.
  - by on_path (run_rejected self game_description (fun _ => []) fs game qa Hgen Hqa Hc).
  - by on_path (run_rejected self game_description (fun _ => []) fs game qa Hgen Hqa Hc).
  - by on_path (run_rejected self game_description (fun _ => []) fs game qa Hgen Hqa Hc).
  - by on_path (run_rejected self game_description (fun _ => []) fs game qa Hgen Hqa Hc).
  - by on_path (run_rejected self game_description (fun r => [print r])
                  (perform_all module_load fs) game qa Hgen Hqa Hc).
  - by on_path (run_rejected self game_description (fun r => [print r])
                  (perform_all module_load fs) game qa Hgen Hqa Hc).
  - on_path (run_rejected self game_description (fun r => [print r])
               (perform_all module_load fs) game qa Hgen Hqa Hc).
    apply lookup_delete_eq.
Qed.

(** C3. When generation yields a valid result and review a valid result with
    [correct = True], the file at the output path holds exactly the
    generated [code] after the run (and after an execution of the script);
    no other file changes. *)
Theorem accepted_file_is_code (self : GameGenerator)
    (game_description : string) (fs : gmap string string)
    (game : GameOutput) (qa : QAOutput) :
  generation self game_description = Some game ->
  review self game_description game = Some qa ->
  correct qa = true ->
  let x := exhaust self (run self game_description) fs in
  let y := load_and_run self game_description fs in
  files x !! game_output_path = Some (code game) /\
  files y !! game_output_path = Some (code game) /\
  (forall p : string, p <> game_output_path -> files x !! p = fs !! p).
Proof.
  intros Hgen Hqa Hc x y; subst x y.
  split_and!.
  - on_path (run_accepted self game_description (fun _ => []) fs game qa Hgen Hqa Hc).
    apply lookup_insert_eq.
  - on_path (run_accepted self game_description (fun r => [print r])
               (perform_all module_load fs) game qa Hgen Hqa Hc).
    apply lookup_insert_eq.
  - intros p Hp.
    on_path (run_accepted self game_description (fun _ => []) fs game qa Hgen Hqa Hc).
    by apply lookup_insert_ne.
Qed.


(** ** Outcomes *)

(** C5. A run whose generation output is absent or malformed, and a run
    whose review output is absent or malformed, each return normally after
    yielding a completion message; a run whose review says
    [correct = False] raises instead and yields nothing.  The two messages
    differ from each other, and raising differs from returning. *)
Theorem failure_severities (self : GameGenerator)
    (game_description : string) (fs : gmap string string) :
  let x := exhaust self (run self game_description) fs in
  (generation self game_description = None ->
   outcome x = Returned /\
   yielded (emitted x) = [completed self generation_failed]) /\
  (forall game,
     generation self game_description = Some game ->
     review self game_description game = None ->
     outcome x = Returned /\
     yielded (emitted x) = [completed self review_failed]) /\
  (forall game qa,
     generation self game_description = Some game ->
     review self game_description game = Some qa ->
     correct qa = false ->
     outcome x = Raised rejection /\ yielded (emitted x) = []) /\
  completed self generation_failed <> completed self review_failed /\
  Raised rejection <> Returned.
Proof.
  intros x; subst x. split_and!.
  - intros Hgen.
    by on_path (run_generation_failed self game_description (fun _ => []) fs Hgen).
  - intros game Hgen Hqa.
    by on_path (run_review_failed self game_description (fun _ => []) fs game Hgen Hqa).
  - intros game qa Hgen Hqa Hc.
    by on_path (run_rejected self game_description (fun _ => []) fs game qa Hgen Hqa Hc).
  - unfold completed, generation_failed, review_failed. intros [=].
  - discriminate.
Qed.

(** C6. When review returns a valid result with [correct = True], the run
    yields one response whose content is the [instructions] of the
    generation result (the script prints it), and the [code] is written to
    the fixed output path. *)
Theorem accepted_run_reports_instructions (self : GameGenerator)
    (game_description : string) (fs : gmap string string)
    (game : GameOutput) (qa : QAOutput) :
  generation self game_description = Some game ->
  review self game_description game = Some qa ->
  correct qa = true ->
  let x := exhaust self (run self game_description) fs in
  let y := load_and_run self game_description fs in
  outcome x = Returned /\
  content <$> yielded (emitted x) = [PyStr (instructions game)] /\
  content <$> printed (emitted y) = [PyStr (instructions game)] /\
  In (EvDo (write_text game_output_path (code game))) (emitted x) /\
  game_output_path = "/content/tmp/games/pong-game.html" /\
  files x = <[game_output_path := code game]> fs.
Proof.
  intros Hgen Hqa Hc x y; subst x y.
  split_and!.
  - by on_path (run_accepted self game_description (fun _ => []) fs game qa Hgen Hqa Hc).
  - by on_path (run_accepted self game_description (fun _ => []) fs game qa Hgen Hqa Hc).
  - by on_path (run_accepted self game_description (fun r => [print r])
                  (perform_all module_load fs) game qa Hgen Hqa Hc).
  - on_path (run_accepted self game_description (fun _ => []) fs game qa Hgen Hqa Hc).
    apply in_or_app. right. by left.
  - done.
  - by on_path (run_accepted self game_description (fun _ => []) fs game qa Hgen Hqa Hc).
Qed.

(** C7. Running twice with the same accepted inputs leaves the files as one
    run leaves them: the second run writes the same text to the output path
    again.  This holds for two calls of [run] and for two executions of the
    script. *)
Theorem accepted_run_idempotent (self : GameGenerator)
    (game_description : string) (fs : gmap string string)
    (game : GameOutput) (qa : QAOutput) :
  generation self game_description = Some game ->
  review self game_description game = Some qa ->
  correct qa = true ->
  let x1 := exhaust self (run self game_description) fs in
  let x2 := exhaust self (run self game_description) (files x1) in
  let y1 := load_and_run self game_description fs in
  let y2 := load_and_run self game_description (files y1) in
  files x2 = files x1 /\
  In (EvDo (write_text game_output_path (code game))) (emitted x2) /\
  files x2 !! game_output_path = files x1 !! game_output_path /\
  files y2 = files y1.
Proof.
  intros Hgen Hqa Hc x1 x2 y1 y2; subst x1 x2 y1 y2.
  assert (Hx : forall fs0, files (exhaust self (run self game_description) fs0)
                           = <[game_output_path := code game]> fs0).
  { intros fs0.
    by on_path (run_accepted self game_description (fun _ => []) fs0 game qa Hgen Hqa Hc). }
  assert (Hy : forall fs0, files (load_and_run self game_description fs0)
                           = <[game_output_path := code game]> fs0).
  { intros fs0.
    on_path (run_accepted self game_description (fun r => [print r])
               (perform_all module_load fs0) game qa Hgen Hqa Hc).
    apply insert_delete_eq. }
  split_and!.
  - rewrite !Hx. apply insert_insert_eq.
  - on_path (run_accepted self game_description (fun _ => [])
               (files (for_in self (fun _ => []) (run self game_description) fs))
               game qa Hgen Hqa Hc).
    apply in_or_app. right. by left.
  - rewrite !Hx. by rewrite insert_insert_eq.
  - rewrite !Hy. apply insert_insert_eq.
Qed.

(** C8, as the code has it.  The output path is cleared once, when the
    module is loaded: an execution of the script is [mkdir] and the [unlink]
    of the output path followed by the run on the files so cleared, where
    nothing is at the output path and every other file is as before; so the
    old file is gone after the script unless an accepted game replaces it.
    [GameGenerator.run] itself never removes a file, and changes the files
    only by the write of an accepted game. *)
Theorem output_path_cleared_at_load (self : GameGenerator)
    (game_description : string) (fs : gmap string string) :
  let x := exhaust self (run self game_description) fs in
  let y := load_and_run self game_description fs in
  let cleared := delete game_output_path fs in
  y = emit [EvDo (mkdir games_dir); EvDo (unlink game_output_path)]
        (for_in self (fun r => [print r]) (run self game_description) cleared) /\
  emitted y =
    EvDo (mkdir games_dir) :: EvDo (unlink game_output_path) ::
    emitted (for_in self (fun r => [print r]) (run self game_description)
               cleared) /\
  main self fs = load_and_run self "Create an enhanced Pong game" fs /\
  cleared !! game_output_path = None /\
  (forall p : string, p <> game_output_path -> cleared !! p = fs !! p) /\
  (~ review_accepts self game_description -> files y = cleared) /\
  (~ review_accepts self game_description -> files y !! game_output_path = None) /\
  (forall game,
     review_accepts self game_description ->
     generation self game_description = Some game ->
     files y = <[game_output_path := code game]> cleared) /\
  existsb (is_removal_of game_output_path) (emitted x) = false /\
  (~ review_accepts self game_description -> files x = fs) /\
  (forall game,
     review_accepts self game_description ->
     generation self game_description = Some game ->
     files x = <[game_output_path := code game]> fs).
Proof.
  intros x y cleared; subst x y cleared.
  assert (Hscript : ~ review_accepts self game_description ->
            files (load_and_run self game_description fs)
            = delete game_output_path fs).
  { intros Hno.
    destruct (stages self game_description)
      as [Hgen|game Hgen Hqa|game qa Hgen Hqa Hc|game qa Hgen Hqa Hc].
    - by on_path (run_generation_failed self game_description (fun r => [print r])
                    (perform_all module_load fs) Hgen).
    - by on_path (run_review_failed self game_description (fun r => [print r])
                    (perform_all module_load fs) game Hgen Hqa).
    - by on_path (run_rejected self game_description (fun r => [print r])
                    (perform_all module_load fs) game qa Hgen Hqa Hc).
    - destruct Hno. by exists game, qa. }
  split_and!.
  - done.
  - done.
  - done.
  - apply lookup_delete_eq.
  - intros p Hp. by apply lookup_delete_ne.
  - done.
  - intros Hno. rewrite (Hscript Hno). apply lookup_delete_eq.
  - intros game Hacc Hgen.
    destruct Hacc as (game' & qa & Hgen' & Hqa & Hc).
    rewrite Hgen in Hgen'. injection Hgen' as <-.
    by on_path (run_accepted self game_description (fun r => [print r])
                  (perform_all module_load fs) game qa Hgen Hqa Hc).
  - destruct (stages self game_description)
      as [Hgen|game Hgen Hqa|game qa Hgen Hqa Hc|game qa Hgen Hqa Hc].
    + by on_path (run_generation_failed self game_description (fun _ => []) fs Hgen).
    + by on_path (run_review_failed self game_description (fun _ => []) fs game Hgen Hqa).
    + by on_path (run_rejected self game_description (fun _ => []) fs game qa Hgen Hqa Hc).
    + on_path (run_accepted self game_description (fun _ => []) fs game qa Hgen Hqa Hc).
      rewrite existsb_app. done.
  - intros Hno.
    destruct (stages self game_description)
      as [Hgen|game Hgen Hqa|game qa Hgen Hqa Hc|game qa Hgen Hqa Hc].
    + by on_path (run_generation_failed self game_description (fun _ => []) fs Hgen).
    + by on_path (run_review_failed self game_description (fun _ => []) fs game Hgen Hqa).
    + by on_path (run_rejected self game_description (fun _ => []) fs game qa Hgen Hqa Hc).
    + destruct Hno. by exists game, qa.
  - intros game Hacc Hgen.
    destruct Hacc as (game' & qa & Hgen' & Hqa & Hc).
    rewrite Hgen in Hgen'. injection Hgen' as <-.
    by on_path (run_accepted self game_description (fun _ => []) fs game qa Hgen Hqa Hc).
Qed.

(** C9. [correct] defaults to [False]: a [QAOutput] built without the
    boolean is valid and has [correct = False], and a run whose QA agent
    returns it is a rejection: it raises, yields nothing and writes
    nothing. *)
Theorem omitted_verdict_is_rejection (self : GameGenerator)
    (game_description : string) (fs : gmap string string)
    (game : GameOutput) (why : string) (resp : RunResponse) :
  generation self game_description = Some game ->
  agent_run (agents self qa_agent) (qa_prompt game_description game) = Some resp ->
  Some (content resp) = PyQAOutput <$> QAOutput_init (Some why) None ->
  let x := exhaust self (run self game_description) fs in
  QAOutput_init (Some why) None = Some {| qa_reasoning := why; correct := false |} /\
  outcome x = Raised rejection /\
  yielded (emitted x) = [] /\
  existsb modifies_files (emitted x) = false /\
  files x = fs.
Proof.
  intros Hgen Hresp Hcontent x; subst x.
  cbn in Hcontent. injection Hcontent as Hcontent.
  assert (Hqa : review self game_description game
                = Some {| qa_reasoning := why; correct := false |}).
  { unfold review. rewrite Hresp. unfold as_QAOutput. by rewrite Hcontent. }
  split; [done|].
  by on_path (run_rejected self game_description (fun _ => []) fs game _ Hgen Hqa eq_refl).
Qed.

(** C10. A run that does not raise yields exactly one response, whose event
    is [workflow_completed], whatever the loop that consumes it does; the
    generator is finished after that response. *)
Theorem returning_run_yields_once (self : GameGenerator)
    (game_description : string) (body : RunResponse -> list Effect)
    (fs : gmap string string) :
  outcome (for_in self body (run self game_description) fs) = Returned ->
  exists r,
    yielded (emitted (for_in self body (run self game_description) fs)) = [r] /\
    event r = workflow_completed /\
    (next self (run self game_description) fs).1.1 = NextValue r Return.
Proof.
  destruct (stages self game_description)
    as [Hgen|game Hgen Hqa|game qa Hgen Hqa Hc|game qa Hgen Hqa Hc].
  - rewrite (run_generation_failed self game_description body fs Hgen).
    intros _. exists (completed self generation_failed).
    cbn [emitted]. split_and!; [by apply yielded_last|done|].
    unfold run, generation in *. cbn [next]. by rewrite Hgen.
  - rewrite (run_review_failed self game_description body fs game Hgen Hqa).
    intros _. exists (completed self review_failed).
    cbn [emitted]. split_and!; [by apply yielded_last|done|].
    unfold run, generation, review, qa_prompt in *.
    cbn [next]. rewrite Hgen. cbn [next]. by rewrite Hqa.
  - rewrite (run_rejected self game_description body fs game qa Hgen Hqa Hc).
    discriminate.
  - rewrite (run_accepted self game_description body fs game qa Hgen Hqa Hc).
    intros _. exists (completed self (instructions game)).
    cbn [emitted]. split_and!; [|done|].
    + rewrite (cons_middle (EvDo _)), app_assoc. by apply yielded_last.
    + unfold run, generation, review, qa_prompt in *.
      cbn [next]. rewrite Hgen. cbn [next]. rewrite Hqa. cbn [next]. by rewrite Hc.
Qed.

(** ** The guards of the two stages *)

Lemma as_GameOutput_Some (r : option RunResponse) (game : GameOutput) :
  as_GameOutput r = Some game <->
  exists resp, r = Some resp /\ content resp = PyGameOutput game.
Proof.
  split.
  - destruct r as [resp|]; [|done]. unfold as_GameOutput.
    destruct (content resp) eqn:Hc;
      cbn [isinstance_GameOutput isinstance_QAOutput];
      rewrite ?andb_false_r; try done.
    cbn. intros [= <-]. by exists resp.
  - intros (resp & -> & Hc). unfold as_GameOutput. by rewrite Hc.
Qed.

Lemma as_QAOutput_Some (r : option RunResponse) (qa : QAOutput) :
  as_QAOutput r = Some qa <->
  exists resp, r = Some resp /\ content resp = PyQAOutput qa.
Proof.
  split.
  - destruct r as [resp|]; [|done]. unfold as_QAOutput.
    destruct (content resp) eqn:Hc;
      cbn [isinstance_GameOutput isinstance_QAOutput];
      rewrite ?andb_false_r; try done.
    cbn. intros [= <-]. by exists resp.
  - intros (resp & -> & Hc). unfold as_QAOutput. by rewrite Hc.
Qed.

(** X1. The guard of each stage accepts exactly the responses whose content
    is an instance of the stage's own model, whatever the fields hold and
    whatever the response's run id and event are: no response, [None], a
    boolean, a text, or an instance of the other model all fail the stage. *)
Theorem stage_guards (self : GameGenerator) (game_description : string) :
  (forall game,
     generation self game_description = Some game <->
     exists resp,
       agent_run (agents self game_developer) game_description = Some resp /\
       content resp = PyGameOutput game) /\
  (forall game qa,
     review self game_description game = Some qa <->
     exists resp,
       agent_run (agents self qa_agent)
         (json_dumps [("game_description", game_description);
                      ("game_code", code game)]) = Some resp /\
       content resp = PyQAOutput qa).
Proof.
  split.
  - intros game. apply as_GameOutput_Some.
  - intros game qa. apply as_QAOutput_Some.
Qed.

(** ** What the agents are asked *)

(** X2. In every run the developer agent is run once, first, on the
    description as given; the QA agent is run after it, once, exactly when
    generation succeeded, on the serialized pair of the description and the
    generated code (the reasoning and the instructions of the game are not
    sent). *)
Theorem agents_asked (self : GameGenerator) (game_description : string)
    (fs : gmap string string) :
  agent_runs (emitted (exhaust self (run self game_description) fs)) =
  (game_developer, game_description) ::
  match generation self game_description with
  | Some game =>
      [(qa_agent,
        json_dumps [("game_description", game_description);
                    ("game_code", code game)])]
  | None => []
  end.
Proof.
  destruct (stages self game_description)
    as [Hgen|game Hgen Hqa|game qa Hgen Hqa Hc|game qa Hgen Hqa Hc];
    rewrite Hgen.
  - by on_path (run_generation_failed self game_description (fun _ => []) fs Hgen).
  - by on_path (run_review_failed self game_description (fun _ => []) fs game Hgen Hqa).
  - by on_path (run_rejected self game_description (fun _ => []) fs game qa Hgen Hqa Hc).
  - by on_path (run_accepted self game_description (fun _ => []) fs game qa Hgen Hqa Hc).
Qed.

(** ** The generator, one step at a time *)

Section Steps.

Variables (self : GameGenerator) (game_description : string).
Variable fs : gmap string string.

Lemma next_generation_failed :
  generation self game_description = None ->
  next self (run self game_description) fs =
  (NextValue (completed self generation_failed) Return,
   events_generation game_description ++ [EvYield (completed self generation_failed)],
   fs).
Proof.
  intros Hgen. unfold generation in Hgen. unfold run. cbn [next]. by rewrite Hgen.
Qed.

Lemma next_review_failed (game : GameOutput) :
  generation self game_description = Some game ->
  review self game_description game = None ->
  next self (run self game_description) fs =
  (NextValue (completed self review_failed) Return,
   events_review game_description game ++ [EvYield (completed self review_failed)],
   fs).
Proof.
  intros Hgen Hqa. unfold generation in Hgen. unfold review, qa_prompt in Hqa.
  unfold run. cbn [next]. rewrite Hgen. cbn [next]. by rewrite Hqa.
Qed.

Lemma next_rejected (game : GameOutput) (qa : QAOutput) :
  generation self game_description = Some game ->
  review self game_description game = Some qa ->
  correct qa = false ->
  next self (run self game_description) fs =
  (NextRaised rejection, events_verdict game_description game qa, fs).
Proof.
  intros Hgen Hqa Hc. unfold generation in Hgen. unfold review, qa_prompt in Hqa.
  unfold run. cbn [next]. rewrite Hgen. cbn [next]. rewrite Hqa. cbn [next].
  by rewrite Hc.
Qed.

Lemma next_accepted (game : GameOutput) (qa : QAOutput) :
  generation self game_description = Some game ->
  review self game_description game = Some qa ->
  correct qa = true ->
  next self (run self game_description) fs =
  (NextValue (completed self (instructions game)) Return,
   events_verdict game_description game qa ++
   [EvDo (write_text game_output_path (code game));
    EvYield (completed self (instructions game))],
   <[game_output_path := code game]> fs).
Proof.
  intros Hgen Hqa Hc. unfold generation in Hgen. unfold review, qa_prompt in Hqa.
  unfold run. cbn [next]. rewrite Hgen. cbn [next]. rewrite Hqa. cbn [next].
  by rewrite Hc.
Qed.

End Steps.

(** X3. The first [next] on the generator does all the work of the run: its
    events and the files it leaves are those of the run iterated to its
    end, so an accepted game is on disk by the time its response is handed
    out, and a rejection is raised by that first step.  The first step
    never ends the iteration, and resuming after the response stops it at
    once, with no event and no change to the files. *)
Theorem first_next_runs_everything (self : GameGenerator)
    (game_description : string) (fs : gmap string string) :
  let x := exhaust self (run self game_description) fs in
  let step := next self (run self game_description) fs in
  step.1.2 = emitted x /\
  step.2 = files x /\
  match step.1.1 with
  | NextValue r rest =>
      outcome x = Returned /\
      next self rest (files x) = (StopIteration, [], files x)
  | NextRaised msg => outcome x = Raised msg
  | StopIteration => False
  end.
Proof.
  intros x step; subst x step.
  destruct (stages self game_description)
    as [Hgen|game Hgen Hqa|game qa Hgen Hqa Hc|game qa Hgen Hqa Hc].
  - rewrite (next_generation_failed self game_description fs Hgen).
    by on_path (run_generation_failed self game_description (fun _ => []) fs Hgen).
  - rewrite (next_review_failed self game_description fs game Hgen Hqa).
    by on_path (run_review_failed self game_description (fun _ => []) fs game Hgen Hqa).
  - rewrite (next_rejected self game_description fs game qa Hgen Hqa Hc).
    by on_path (run_rejected self game_description (fun _ => []) fs game qa Hgen Hqa Hc).
  - rewrite (next_accepted self game_description fs game qa Hgen Hqa Hc).
    by on_path (run_accepted self game_description (fun _ => []) fs game qa Hgen Hqa Hc).
Qed.

(** ** The script and its files *)

Lemma run_files (self : GameGenerator) (game_description : string)
    (body : RunResponse -> list Effect) (fs : gmap string string) :
  (forall r, perform_all (body r) = id) ->
  files (for_in self body (run self game_description) fs) =
  match persisted self game_description with
  | Some text => <[game_output_path := text]> fs
  | None => fs
  end.
Proof.
  intros Hbody. unfold persisted.
  destruct (stages self game_description)
    as [Hgen|game Hgen Hqa|game qa Hgen Hqa Hc|game qa Hgen Hqa Hc];
    rewrite Hgen, ?Hqa, ?Hc.
  - rewrite (run_generation_failed self game_description body fs Hgen).
    cbn [files]. by rewrite Hbody.
  - rewrite (run_review_failed self game_description body fs game Hgen Hqa).
    cbn [files]. by rewrite Hbody.
  - by rewrite (run_rejected self game_description body fs game qa Hgen Hqa Hc).
  - rewrite (run_accepted self game_description body fs game qa Hgen Hqa Hc).
    cbn [files]. by rewrite Hbody.
Qed.

Lemma run_yields (self : GameGenerator) (game_description : string)
    (body : RunResponse -> list Effect) (fs : gmap string string) :
  yielded (emitted (for_in self body (run self game_description) fs)) =
  match generation self game_description with
  | Some game =>
      match review self game_description game with
      | Some qa =>
          if correct qa then [completed self (instructions game)] else []
      | None => [completed self review_failed]
      end
  | None => [completed self generation_failed]
  end.
Proof.
  destruct (stages self game_description)
    as [Hgen|game Hgen Hqa|game qa Hgen Hqa Hc|game qa Hgen Hqa Hc];
    rewrite Hgen, ?Hqa, ?Hc.
  - rewrite (run_generation_failed self game_description body fs Hgen).
    by apply yielded_last.
  - rewrite (run_review_failed self game_description body fs game Hgen Hqa).
    by apply yielded_last.
  - by rewrite (run_rejected self game_description body fs game qa Hgen Hqa Hc).
  - rewrite (run_accepted self game_description body fs game qa Hgen Hqa Hc).
    cbn [emitted]. rewrite (cons_middle (EvDo _)), app_assoc. by apply yielded_last.
Qed.

(** X4. The script prints exactly the responses the run yields, in order,
    and these do not depend on the files present when it starts; when the
    review rejects the game nothing is printed before the exception leaves
    the loop. *)
Theorem script_prints_the_yields (self : GameGenerator)
    (game_description : string) (fs fs' : gmap string string) :
  let y := load_and_run self game_description fs in
  printed (emitted y) =
    yielded (emitted (exhaust self (run self game_description) fs')) /\
  yielded (emitted y) = printed (emitted y) /\
  (forall msg, outcome y = Raised msg -> printed (emitted y) = []).
Proof.
  intros y; subst y. unfold exhaust. rewrite run_yields.
  assert (Hy : yielded (emitted (load_and_run self game_description fs)) =
               yielded (emitted (for_in self (fun r => [print r])
                                   (run self game_description)
                                   (perform_all module_load fs)))) by done.
  rewrite Hy, run_yields. clear Hy.
  destruct (stages self game_description)
    as [Hgen|game Hgen Hqa|game qa Hgen Hqa Hc|game qa Hgen Hqa Hc];
    rewrite Hgen, ?Hqa, ?Hc.
  - by on_path (run_generation_failed self game_description (fun r => [print r])
                  (perform_all module_load fs) Hgen).
  - by on_path (run_review_failed self game_description (fun r => [print r])
                  (perform_all module_load fs) game Hgen Hqa).
  - by on_path (run_rejected self game_description (fun r => [print r])
                  (perform_all module_load fs) game qa Hgen Hqa Hc).
  - by on_path (run_accepted self game_description (fun r => [print r])
                  (perform_all module_load fs) game qa Hgen Hqa Hc).
Qed.

(** X5. After an execution of the script the output path holds the accepted
    code, or nothing: what was at the output path before never survives,
    also when the review stage fails.  Every other file is as it was. *)
Theorem script_files (self : GameGenerator) (game_description : string)
    (fs : gmap string string) :
  let y := load_and_run self game_description fs in
  files y !! game_output_path = persisted self game_description /\
  (forall game,
     generation self game_description = Some game ->
     review self game_description game = None ->
     files y !! game_output_path = None) /\
  (forall p : string, p <> game_output_path -> files y !! p = fs !! p).
Proof.
  intros y; subst y.
  assert (Hy : files (load_and_run self game_description fs) =
               match persisted self game_description with
               | Some text => <[game_output_path := text]> (delete game_output_path fs)
               | None => delete game_output_path fs
               end).
  { unfold load_and_run, emit. cbn [files]. by rewrite run_files. }
  rewrite Hy. split_and!.
  - destruct (persisted self game_description);
      [apply lookup_insert_eq | apply lookup_delete_eq].
  - intros game Hgen Hqa. unfold persisted. rewrite Hgen, Hqa.
    apply lookup_delete_eq.
  - intros p Hp. destruct (persisted self game_description).
    + rewrite lookup_insert_ne by done. by apply lookup_delete_ne.
    + by apply lookup_delete_ne.
Qed.

(** X6. Two runs in one process, without reloading the module: the output
    path holds the code of the latest accepted run; a run that fails or is
    rejected leaves the game of an earlier run (or an older file) in place.
    No other file changes. *)
Theorem consecutive_runs (self1 self2 : GameGenerator)
    (description1 description2 : string) (fs : gmap string string) :
  let x1 := exhaust self1 (run self1 description1) fs in
  let x2 := exhaust self2 (run self2 description2) (files x1) in
  files x2 !! game_output_path =
    match persisted self2 description2, persisted self1 description1 with
    | Some text, _ => Some text
    | None, Some text => Some text
    | None, None => fs !! game_output_path
    end /\
  (forall p : string, p <> game_output_path -> files x2 !! p = fs !! p).
Proof.
  intros x1 x2; subst x1 x2. unfold exhaust.
  rewrite !run_files by done.
  destruct (persisted self2 description2), (persisted self1 description1);
    split; try intros p Hp;
    rewrite ?lookup_insert_eq, ?lookup_insert_ne by done; done.
Qed.

(** ** The responses *)

(** X7. On every path, and whatever the consuming loop does, a run yields at
    most one response; it carries the run id of the workflow (not the one of
    an agent's response), the event [workflow_completed] and a text as
    content, never a model instance. *)
Theorem responses_shape (self : GameGenerator) (game_description : string)
    (body : RunResponse -> list Effect) (fs : gmap string string) :
  let rs := yielded (emitted (for_in self body (run self game_description) fs)) in
  length rs <= 1 /\
  Forall (fun r => run_id r = self_run_id self /\
                   event r = workflow_completed /\
                   exists text, content r = PyStr text) rs.
Proof.
  intros rs; subst rs. rewrite run_yields.
  destruct (generation self game_description) as [game|];
    [destruct (review self game_description game) as [qa|];
       [destruct (correct qa)|]|];
    (split; [cbn; lia | repeat constructor; by eexists]).
Qed.

(** X8. Success and failure are told apart by the text of the response
    alone: for an accepted run and a run whose generation failed, of the
    same or of different workflow objects and whatever their run ids are,
    the yielded responses have the same events, and the same contents
    exactly when the instructions of the accepted game are the failure
    message. *)
Theorem report_distinguishes_by_text_only (self1 self2 : GameGenerator)
    (description1 description2 : string) (fs1 fs2 : gmap string string)
    (game : GameOutput) (qa : QAOutput) :
  generation self1 description1 = Some game ->
  review self1 description1 game = Some qa ->
  correct qa = true ->
  generation self2 description2 = None ->
  let rs1 := yielded (emitted (exhaust self1 (run self1 description1) fs1)) in
  let rs2 := yielded (emitted (exhaust self2 (run self2 description2) fs2)) in
  event <$> rs1 = event <$> rs2 /\
  (content <$> rs1 = content <$> rs2 <->
   instructions game = "Game generation failed (developer agent).").
Proof.
  intros Hgen Hqa Hc Hfail rs1 rs2; subst rs1 rs2. unfold exhaust.
  rewrite !run_yields, Hgen, Hqa, Hc, Hfail. unfold completed, generation_failed.
  split; [done|]. cbn.
  split; [by intros [= ->] | by intros ->].
Qed.

End Workflow.

(** ** The theorems at sample runs *)

Lemma write_iff_review_accepts_sample :
  existsb (is_write_to game_output_path)
    (emitted (exhaust accepting (run plain_dumps accepting "Create a Pong game") ∅))
  = true /\
  files (exhaust unreviewed (run plain_dumps unreviewed "Create a Pong game") stale_files)
  = stale_files.
Proof.
  split.
  - apply (write_iff_review_accepts plain_dumps accepting "Create a Pong game" ∅).
    by exists pong, (verdict true).
  - apply (write_iff_review_accepts plain_dumps unreviewed "Create a Pong game" stale_files).
    intros (game & qa & _ & Hqa & _). discriminate Hqa.
Defined.

Lemma rejected_run_sample :
  outcome (exhaust rejecting (run plain_dumps rejecting "Create a Pong game") stale_files)
  = Raised rejection /\
  files (load_and_run plain_dumps rejecting "Create a Pong game" stale_files)
    !! game_output_path = None.
Proof.
  destruct (rejected_run_raises_without_file plain_dumps rejecting
              "Create a Pong game" stale_files pong (verdict false)
              eq_refl eq_refl eq_refl)
    as (Hraise & _ & _ & _ & _ & _ & Hnone).
  exact (conj Hraise Hnone).
Defined.

Lemma accepted_file_sample :
  files (exhaust accepting (run plain_dumps accepting "Create a Pong game") stale_files)
    !! game_output_path = Some "<html>...</html>".
Proof.
  exact (proj1 (accepted_file_is_code plain_dumps accepting "Create a Pong game"
                  stale_files pong (verdict true) eq_refl eq_refl eq_refl)).
Defined.


Lemma failure_severities_sample :
  outcome (exhaust undeveloped (run plain_dumps undeveloped "Create a Pong game") ∅)
  = Returned /\
  outcome (exhaust unreviewed (run plain_dumps unreviewed "Create a Pong game") ∅)
  = Returned /\
  outcome (exhaust rejecting (run plain_dumps rejecting "Create a Pong game") ∅)
  = Raised rejection.
Proof.
  split_and!.
  - exact (proj1 (proj1 (failure_severities plain_dumps undeveloped
                           "Create a Pong game" ∅) eq_refl)).
  - exact (proj1 (proj1 (proj2 (failure_severities plain_dumps unreviewed
                                  "Create a Pong game" ∅)) pong eq_refl eq_refl)).
  - exact (proj1 (proj1 (proj2 (proj2 (failure_severities plain_dumps rejecting
                                         "Create a Pong game" ∅)))
                    pong (verdict false) eq_refl eq_refl eq_refl)).
Defined.

Lemma accepted_report_sample :
  content <$> yielded
    (emitted (exhaust accepting (run plain_dumps accepting "Create a Pong game") ∅))
  = [PyStr "Use W/S"].
Proof.
  destruct (accepted_run_reports_instructions plain_dumps accepting
              "Create a Pong game" ∅ pong (verdict true) eq_refl eq_refl eq_refl)
    as (_ & Hreport & _).
  exact Hreport.
Defined.

Lemma accepted_twice_sample :
  files (exhaust accepting (run plain_dumps accepting "Create a Pong game")
           (files (exhaust accepting
                     (run plain_dumps accepting "Create a Pong game") stale_files)))
  = files (exhaust accepting (run plain_dumps accepting "Create a Pong game") stale_files).
Proof.
  exact (proj1 (accepted_run_idempotent plain_dumps accepting "Create a Pong game"
                  stale_files pong (verdict true) eq_refl eq_refl eq_refl)).
Defined.

Lemma cleared_at_load_sample :
  existsb (is_removal_of game_output_path)
    (emitted (exhaust undeveloped
                (run plain_dumps undeveloped "Create an enhanced Pong game") stale_files))
  = false /\
  delete game_output_path stale_files !! game_output_path = None /\
  files (main plain_dumps undeveloped stale_files) !! game_output_path = None.
Proof.
  destruct (output_path_cleared_at_load plain_dumps undeveloped
              "Create an enhanced Pong game" stale_files)
    as (_ & _ & _ & Hload & _ & _ & Hgone & _ & Hrun & _).
  split_and!; [exact Hrun | exact Hload |].
  apply Hgone. intros (game & qa & Hgen & _). discriminate Hgen.
Defined.

(** C8 fails for [run] as stated: called while a file is at the output path,
    with a developer agent that returns plain text, the run goes through the
    generation stage and returns without any removal or write, and the old
    file is still there afterwards. *)
Lemma run_keeps_existing_file :
  emitted (exhaust undeveloped
             (run plain_dumps undeveloped "Create an enhanced Pong game") stale_files)
  = [EvDo (logger_info (PyStr "Game description: Create an enhanced Pong game"));
     EvRunAgent game_developer "Create an enhanced Pong game";
     EvYield (completed undeveloped generation_failed)] /\
  files (exhaust undeveloped
           (run plain_dumps undeveloped "Create an enhanced Pong game") stale_files)
    !! game_output_path = Some "<html>old</html>".
Proof.
  unfold exhaust.
  rewrite (run_generation_failed plain_dumps undeveloped
             "Create an enhanced Pong game" (fun _ => []) stale_files eq_refl).
  split; [reflexivity|]. apply lookup_singleton_eq.
Qed.

Lemma omitted_verdict_sample :
  outcome (exhaust undecided (run plain_dumps undecided "Create a Pong game") ∅)
  = Raised rejection.
Proof.
  destruct (omitted_verdict_is_rejection plain_dumps undecided "Create a Pong game" ∅
              pong "no verdict given" _ eq_refl eq_refl eq_refl)
    as (_ & Hraise & _).
  exact Hraise.
Defined.

Lemma returning_run_sample :
  exists r,
    yielded (emitted (for_in unanswered (fun r => [print r])
                        (run plain_dumps unanswered "Create a Pong game") ∅)) = [r] /\
    event r = workflow_completed /\
    (next unanswered (run plain_dumps unanswered "Create a Pong game") ∅).1.1
    = NextValue r Return.
Proof.
  exact (returning_run_yields_once plain_dumps unanswered "Create a Pong game"
           (fun r => [print r]) ∅ eq_refl).
Defined.

Lemma stage_guards_sample :
  generation accepting "Create a Pong game" = Some pong /\
  review plain_dumps accepting "Create a Pong game" pong = Some (verdict true) /\
  generation confused "Create a Pong game" = None.
Proof.
  split_and!.
  - apply (proj1 (stage_guards plain_dumps accepting "Create a Pong game")).
    eexists. split; reflexivity.
  - apply (proj2 (stage_guards plain_dumps accepting "Create a Pong game")).
    eexists. split; reflexivity.
  - reflexivity.
Defined.

Lemma script_files_sample :
  files (load_and_run plain_dumps unreviewed "Create a Pong game" stale_files)
    !! game_output_path = None.
Proof.
  exact (proj1 (proj2 (script_files plain_dumps unreviewed "Create a Pong game"
                         stale_files)) pong eq_refl eq_refl).
Defined.

Lemma consecutive_runs_sample :
  files (exhaust rejecting (run plain_dumps rejecting "Create a harder Pong game")
           (files (exhaust accepting
                     (run plain_dumps accepting "Create a Pong game") ∅)))
    !! game_output_path = Some "<html>...</html>".
Proof.
  exact (proj1 (consecutive_runs plain_dumps accepting rejecting
                  "Create a Pong game" "Create a harder Pong game" ∅)).
Defined.

Lemma report_by_text_sample :
  content <$> yielded
    (emitted (exhaust selective (run plain_dumps selective "Create a Pong game") ∅)) =
  content <$> yielded
    (emitted (exhaust fresh_undeveloped
                (run plain_dumps fresh_undeveloped "Create a maze") stale_files)).
Proof.
  exact (proj2 (proj2 (report_distinguishes_by_text_only plain_dumps
                         selective fresh_undeveloped
                         "Create a Pong game" "Create a maze" ∅ stale_files
                         misleading_pong (verdict true)
                         eq_refl eq_refl eq_refl eq_refl))
           eq_refl).
Defined.
